(** * Verification of the encoder training driver of ValuTTS

    Shallow embedding of [TTS/bin/train_encoder.py] (batch regrouping, the
    [train] loop, the restore block of [main]) and of
    [TTS/encoder/configs/base_encoder_config.py] ([check_values]).

    Python floats are IEEE-754 binary64 numbers; they are modelled by Rocq's
    primitive [float] type, whose operations compute as binary64 does, so the
    arithmetic of the loop is evaluated exactly as CPython evaluates it.
    Python ints are [Z]. Tensors are lists of their first-axis rows. *)

From Stdlib Require Import ZArith List Lia Permutation Sorted Floats Uint63.
From stdpp Require Import base gmap strings.
Import ListNotations.

(* Python's float literals 0.01 and 0.99 denote their nearest binary64 values,
   exactly as Rocq's primitive float literals do. *)
Set Warnings "-inexact-float".

(* ------------------------------------------------------------------ *)
(** ** Batch regrouping (train, lines 84-85) *)

Module Regroup.
Section Regroup.
Context {A : Type}.

(** Source index read by output position [k] of
    [torch.transpose(x.view(U, C), 0, 1).reshape(x.shape)].
    [x.view(U, C)] is the row-major grid with strides [(C, 1)];
    [transpose(0, 1)] swaps them to shape [(C, U)] with strides [(1, C)];
    [reshape] copies it out contiguously, so output position [k = j*U + i]
    ([j = k / U], [i = k mod U]) reads grid element [(i, j)], at offset
    [i*C + j] of [x]. *)
Definition src_index (U C k : nat) : nat := (k mod U) * C + k / U.

(** [torch.transpose(x.view(U, C, ...), 0, 1).reshape(x.shape)] on the first
    axis of [x]; [view] raises a RuntimeError ([None]) unless the axis has
    exactly [U * C] entries. [d] is only read out of range, never here. *)
Definition view_transpose_reshape (d : A) (U C : nat) (x : list A)
    : option (list A) :=
  if Nat.eqb (length x) (U * C)
  then Some (map (fun k => nth (src_index U C k) x d) (seq 0 (C * U)))
  else None.

End Regroup.

(** Lines 84-85: labels first, then inputs, with
    [U = num_utter_per_class] and [C = num_classes_in_batch]. *)
Definition group_batch {F L : Type} (dF : F) (dL : L)
    (num_utter_per_class num_classes_in_batch : nat)
    (inputs : list F) (labels : list L) : option (list F * list L) :=
  match view_transpose_reshape dL num_utter_per_class num_classes_in_batch labels with
  | None => None
  | Some labels' =>
      match view_transpose_reshape dF num_utter_per_class num_classes_in_batch inputs with
      | None => None
      | Some inputs' => Some (inputs', labels')
      end
  end.

End Regroup.

(* ------------------------------------------------------------------ *)
(** ** The [train] loop (train_encoder.py, lines 69-171) *)

Module Loop.

(** The configuration fields the loop reads. *)
Record TrainConfig := {
  max_train_step : Z;
  save_step : Z;
  print_step : Z;
  steps_plot_stats : Z;
  num_loader_workers : Z
}.

(** What one iteration receives from its collaborators: [loss.item()] from
    the criterion and [loader_time = time.time() - end_time] from the clock.
    Tensors, gradients and the optimizer step do not feed the loop's own
    bookkeeping and are not modelled. *)
Record Obs := {
  obs_loss : float;
  obs_loader_time : float
}.

(** The loop-local variables, plus the log of the steps at which
    [save_best_model] wrote a checkpoint (newest first). *)
Record TrainState := {
  global_step : Z;
  avg_loss : float;
  avg_loader_time : float;
  best_loss : float;
  avg_loss_all : float;
  checkpoints : list Z
}.

(** [best_loss = float("inf")], [avg_loss = 0], [avg_loss_all = 0],
    [avg_loader_time = 0] (the int [0] compares and adds as [0.0]). *)
Definition init_state (global_step0 : Z) : TrainState := {|
  global_step := global_step0;
  avg_loss := 0%float;
  avg_loader_time := 0%float;
  best_loss := PrimFloat.infinity;
  avg_loss_all := 0%float;
  checkpoints := []
|}.

(** [float(z)] for the small non-negative ints the loop converts
    (exact below 2^53; Python's [int / int] is then the float division). *)
Definition float_of_int (z : Z) : float := PrimFloat.of_uint63 (Uint63.of_Z z).

(** Line 128: [0.01 * loss.item() + 0.99 * avg_loss if avg_loss != 0 else loss.item()]. *)
Definition ema_loss (avg new : float) : float :=
  if negb (PrimFloat.eqb avg 0%float)
  then (0.01 * new + 0.99 * avg)%float
  else new.

(** Line 129: [c.num_loader_workers if c.num_loader_workers > 0 else 1]. *)
Definition loader_workers (c : TrainConfig) : Z :=
  if (0 <? num_loader_workers c)%Z then num_loader_workers c else 1%Z.

(** Lines 130-134, with [nw] the value of line 129. *)
Definition ema_loader_time (nw : Z) (avg new : float) : float :=
  if negb (PrimFloat.eqb avg 0%float)
  then (float_of_int 1 / float_of_int nw * new
        + float_of_int (nw - 1) / float_of_int nw * avg)%float
  else new.

(** [a % b == 0] on Python ints: floor modulo, [ZeroDivisionError] ([None])
    when [b = 0]. *)
Definition py_mod_is_zero (a b : Z) : option bool :=
  if (b =? 0)%Z then None else Some (a mod b =? 0)%Z.

(** Modelled from the spec: [save_best_model] (TTS.encoder.utils.generic_utils,
    not under src/), "persist a checkpoint if the current smoothed loss is the
    best seen so far ...; update the best-loss watermark". Returns the new
    watermark and whether a checkpoint was written. *)
Definition save_best_model (model_loss best : float) : float * bool :=
  if PrimFloat.ltb model_loss best then (model_loss, true) else (best, false).

(** The save block of lines 162-167, entered with the step's values. *)
Definition save_block (s : TrainState) : TrainState :=
  let '(best', written) := save_best_model (avg_loss s) (best_loss s) in
  {| global_step := global_step s;
     avg_loss := avg_loss s;
     avg_loader_time := avg_loader_time s;
     best_loss := best';
     avg_loss_all := 0%float;
     checkpoints := if written then global_step s :: checkpoints s
                    else checkpoints s |}.

(** One iteration of the [for] body (lines 79-169). The boolean is [true]
    when the iteration ends in [break]. [None] is a [ZeroDivisionError] of
    one of the cadence tests (lines 137, 152, 162); the dashboard and print
    side effects they guard are not modelled. *)
Definition train_step (c : TrainConfig) (s : TrainState) (o : Obs)
    : option (TrainState * bool) :=
  let gs := (global_step s + 1)%Z in
  let al := ema_loss (avg_loss s) (obs_loss o) in
  let alt := ema_loader_time (loader_workers c) (avg_loader_time s) (obs_loader_time o) in
  match py_mod_is_zero gs (steps_plot_stats c), py_mod_is_zero gs (print_step c) with
  | Some _, Some _ =>
      let s1 := {| global_step := gs;
                   avg_loss := al;
                   avg_loader_time := alt;
                   best_loss := best_loss s;
                   avg_loss_all := (avg_loss_all s + al)%float;
                   checkpoints := checkpoints s |} in
      if (max_train_step c <=? gs)%Z then Some (save_block s1, true)
      else match py_mod_is_zero gs (save_step c) with
           | None => None
           | Some true => Some (save_block s1, false)
           | Some false => Some (s1, false)
           end
  | _, _ => None
  end.

(** The [for _, data in enumerate(data_loader)] loop: one pass over the
    batches the loader yields. Returns the final state and the number of
    batches processed. *)
Fixpoint train_loop (c : TrainConfig) (s : TrainState) (bs : list Obs)
    : option (TrainState * nat) :=
  match bs with
  | [] => Some (s, 0%nat)
  | o :: bs' =>
      match train_step c s o with
      | None => None
      | Some (s', true) => Some (s', 1%nat)
      | Some (s', false) =>
          match train_loop c s' bs' with
          | None => None
          | Some (s'', n) => Some (s'', S n)
          end
      end
  end.

(** [train(..., data_loader, global_step)]; the Python return value
    [(avg_loss, global_step)] is [train_result]. *)
Definition train (c : TrainConfig) (bs : list Obs) (global_step0 : Z)
    : option (TrainState * nat) :=
  train_loop c (init_state global_step0) bs.

Definition train_result (r : TrainState * nat) : float * Z :=
  (avg_loss (fst r), global_step (fst r)).

(** A logged step: after the initial step, at most the current one, and a save
    step or a step at or past the budget. *)
Definition logged_step (c : TrainConfig) (global_step0 gs g : Z) : Prop :=
  (global_step0 < g <= gs)%Z
  /\ ((save_step c <> 0 /\ g mod save_step c = 0) \/ max_train_step c <= g)%Z.

(** Sample configurations, batches and states. *)
Definition cfg_small : TrainConfig :=
  {| max_train_step := 5; save_step := 2; print_step := 1;
     steps_plot_stats := 1; num_loader_workers := 2 |}.

Definition obs_small (l : float) : Obs :=
  {| obs_loss := l; obs_loader_time := 0.5 |}.

(** A state after one step, with a nonzero average loss and loader time. *)
Definition state_after_one : TrainState :=
  {| global_step := 1; avg_loss := 2; avg_loader_time := 0.4;
     best_loss := PrimFloat.infinity; avg_loss_all := 2; checkpoints := [] |}.

End Loop.

(* ------------------------------------------------------------------ *)
(** ** Configuration validation (base_encoder_config.py) *)

Module Config.

(** The Python values a config field or a [model_params] entry can hold
    here. *)
Inductive PyVal :=
| PyInt (z : Z)
| PyBool (b : bool)
| PyFloat (f : float)
| PyStr (s : string)
| PyNone.

(** Python [f == n] for a float [f] and an int [n]: the exact comparison of
    their values ([80.0 == 80] holds); an infinity or a NaN equals no int. *)
Definition py_float_eq_int (f : float) (n : Z) : bool :=
  match Prim2SF f with
  | S754_zero _ => Z.eqb n 0
  | S754_finite sgn m e =>
      let v := if (0 <=? e)%Z then Some (Z.pos m * 2 ^ e)%Z
               else if (Z.pos m mod 2 ^ (- e) =? 0)%Z then Some (Z.pos m / 2 ^ (- e))%Z
               else None in
      match v with
      | Some a => Z.eqb (if sgn then - a else a)%Z n
      | None => false
      end
  | _ => false
  end.

(** Python [v == n] for an int [n]: [True == 1] and [False == 0] hold, a
    float compares by value, a string or [None] is never equal to an int. *)
Definition py_eq_int (v : PyVal) (n : Z) : bool :=
  match v with
  | PyInt z => Z.eqb z n
  | PyBool b => Z.eqb (if b then 1 else 0)%Z n
  | PyFloat f => py_float_eq_int f n
  | PyStr _ | PyNone => false
  end.

(** coqpit's [MISSING], the declared default of the three batch fields
    (lines 47-49). *)
Definition MISSING : PyVal := PyStr "???".

(** coqpit's [Coqpit.__getattribute__] raises AttributeError when the field
    read still holds [MISSING]. *)
Definition is_missing (v : PyVal) : bool :=
  match v with
  | PyStr s => String.eqb s "???"
  | _ => false
  end.

Inductive PyExc :=
| AssertionError (msg : string)
| KeyError (key : string)
| AttributeError
| ParentCheckError.

Record AudioConfig := { num_mels : Z }.

(** The fields of [BaseEncoderConfig] that [check_values] reads. The other
    fields have defaults other than [MISSING] and are not modelled. *)
Record EncoderConfig := {
  audio : AudioConfig;
  model_params : gmap string PyVal;
  num_classes_in_batch : PyVal;
  num_utter_per_class : PyVal;
  num_loader_workers : PyVal
}.

(** None of the three batch fields still holds [MISSING]. *)
Definition batch_fields_set (cfg : EncoderConfig) : bool :=
  negb (is_missing (num_classes_in_batch cfg) || is_missing (num_utter_per_class cfg)
        || is_missing (num_loader_workers cfg)).

Definition input_dim_msg : string :=
  " [!] model input dimendion must be equal to melspectrogram dimension.".

Section CheckValues.
(** [super().check_values()] of [BaseTrainingConfig]: [None] when it passes. *)
Variable base_check_values : EncoderConfig -> option PyExc.

(** [BaseEncoderConfig.check_values] (lines 53-58); [None] when it returns.
    [asdict(self)] (line 55) reads every field and raises AttributeError on
    the first one still holding [MISSING] (its message names that field; only
    the exception is modelled); then [c["model_params"]["input_dim"]] is
    looked up and compared with [self.audio.num_mels]. *)
Definition check_values (cfg : EncoderConfig) : option PyExc :=
  match base_check_values cfg with
  | Some e => Some e
  | None =>
      if negb (batch_fields_set cfg) then Some AttributeError
      else
        match model_params cfg !! "input_dim"%string with
        | None => Some (KeyError "input_dim")
        | Some v =>
            if py_eq_int v (num_mels (audio cfg)) then None
            else Some (AssertionError input_dim_msg)
        end
  end.

(** The resources [main] allocates, in order (lines 179-199). *)
Inductive Resource :=
| AudioProcessorR | EncoderModelR | OptimizerR | SamplesR | DataLoaderR | CriterionR.

Definition main_allocations : list Resource :=
  [AudioProcessorR; EncoderModelR; OptimizerR; SamplesR; DataLoaderR; CriterionR].

(** Modelled from the spec: [init_training] (TTS.encoder.utils.training, not
    under src/) loads and validates the configuration before [main] runs; a
    ConfigurationError is "detected eagerly before training starts, fatal".
    Returns the resources allocated and the exception that ended the run. *)
Definition run_encoder_training (cfg : EncoderConfig) : list Resource * option PyExc :=
  match check_values cfg with
  | Some e => ([], Some e)
  | None => (main_allocations, None)
  end.

End CheckValues.

End Config.

(* ------------------------------------------------------------------ *)
(** ** Restore of [main] (train_encoder.py, lines 203-223 and 237) *)

Module Restore.

(** A parameter tensor: its shape and (an identifier of) its contents. *)
Record Tensor := { shape : list nat; contents : Z }.

(** A module's [state_dict()]: parameter name to tensor. *)
Abbreviation StateDict := (gmap string Tensor).

(** The shape test on one parameter name. *)
Definition shape_matches (sd : StateDict) (k : string) (p : Tensor) : bool :=
  match sd !! k with
  | Some t => bool_decide (shape t = shape p)
  | None => false
  end.

(** [torch.nn.Module.load_state_dict(sd)] with [strict=True]: every parameter
    whose name is in [sd] with the same shape is copied in place; missing keys,
    unexpected keys and shape mismatches are collected, and raised as a
    RuntimeError after the copying. Returns the module's parameters afterwards
    and whether the call returned without raising. *)
Definition load_state_dict (params sd : StateDict) : StateDict * bool :=
  (map_imap (fun k p => Some (match sd !! k with
                               | Some t => if bool_decide (shape t = shape p) then t else p
                               | None => p
                               end)) params,
   bool_decide (dom sd = dom params)
   && bool_decide (map_Forall (fun k p => shape_matches sd k p = true) params)).

(** Modelled from the spec: [set_init_dict] (TTS.utils.generic_utils, not under
    src/), the partial load that "copies only matching parameters by name and
    shape, leaving the rest at their freshly initialized values". *)
Definition set_init_dict (model_dict checkpoint_state : StateDict) : StateDict :=
  map_imap (fun k p => Some (if shape_matches checkpoint_state k p
                             then default p (checkpoint_state !! k)
                             else p)) model_dict.

Record ParamGroup := { lr : float; weight_decay : float }.

(** A checkpoint as [load_fsspec] returns it: ["model"], the optional
    ["criterion"], ["optimizer"] and ["step"]. *)
Record Checkpoint := {
  ck_model : StateDict;
  ck_criterion : option StateDict;
  ck_optimizer : list ParamGroup;
  ck_step : Z
}.

(** [group["lr"] = c.lr] for every group (lines 217-218). *)
Definition reset_lr (c_lr : float) (groups : list ParamGroup) : list ParamGroup :=
  map (fun g => {| lr := c_lr; weight_decay := weight_decay g |}) groups.

(** Lines 204-221 for a loaded checkpoint: the model, criterion and optimizer
    groups afterwards and [args.restore_step]; [None] if the fallback's
    [model.load_state_dict(model_dict)] raised. *)
Definition restore_checkpoint (c_lr : float) (model criterion : StateDict)
    (groups : list ParamGroup) (ck : Checkpoint)
    : option (StateDict * StateDict * list ParamGroup * Z) :=
  (* try: *)
  let '(m1, ok1) := load_state_dict model (ck_model ck) in
  let '(m2, c2, raised) :=
    if ok1 then
      match ck_criterion ck with
      | Some cs => let '(c1, ok2) := load_state_dict criterion cs in (m1, c1, negb ok2)
      | None => (m1, criterion, false)
      end
    else (m1, criterion, true) in
  (* except (KeyError, RuntimeError): *)
  let m3 :=
    if raised then
      let model_dict := set_init_dict m2 (ck_model ck) in
      let '(m3, ok3) := load_state_dict m2 model_dict in
      if ok3 then Some m3 else None
    else Some m2 in
  match m3 with
  | None => None
  | Some m => Some (m, c2, reset_lr c_lr groups, ck_step ck)
  end.

(** Lines 203-223 and 237: [restore] is the checkpoint [load_fsspec] reads
    from [args.restore_path], [None] when no path is given. The last
    component is the [global_step] passed to [train]. *)
Definition restore_stage (c_lr : float) (restore : option Checkpoint)
    (model criterion : StateDict) (groups : list ParamGroup)
    : option (StateDict * StateDict * list ParamGroup * Z) :=
  match restore with
  | None => Some (model, criterion, groups, 0%Z)
  | Some ck => restore_checkpoint c_lr model criterion groups ck
  end.

(** A checkpoint of the same architecture: the same parameter names, each with
    the module's shape. *)
Definition same_layout (m sd : StateDict) : Prop :=
  dom sd = dom m
  /\ forall k p, m !! k = Some p -> exists t, sd !! k = Some t /\ shape t = shape p.

(** A sample checkpoint. *)
Definition ck_small : Checkpoint :=
  {| ck_model := <["w"%string := Build_Tensor [2] 10]> ∅;
     ck_criterion := Some (<["a"%string := Build_Tensor [1] 50]> ∅);
     ck_optimizer := [];
     ck_step := 7 |}.

End Restore.

(* ------------------------------------------------------------------ *)
(** ** The criterion's view of the embeddings (train, line 119) *)

Module LossView.

(** [outputs.view(C, outputs.shape[0] // C, -1)] on the first axis: [C]
    consecutive blocks of [N // C] rows each. [C = 0] raises
    ZeroDivisionError ([None]). When [N] is not a multiple of [C] the view
    either raises or cuts through rows; that case is not modelled ([None]). *)
Definition view_classes {A : Type} (C : nat) (rows : list A) : option (list (list A)) :=
  if Nat.eqb C 0 then None
  else if negb (Nat.eqb (length rows mod C) 0) then None
  else
    let k := length rows / C in
    Some (map (fun j => firstn k (skipn (j * k) rows)) (seq 0 C)).

End LossView.

(* ================================================================== *)
(** * Proofs *)

Module RegroupFacts.
Import Regroup.

(** The comment of line 83: the sampler's [3,2,1,3,2,1] becomes [3,3,2,2,1,1]
    (two utterances of three classes). *)
Example regroup_line83 :
  view_transpose_reshape 0 2 3 [3;2;1;3;2;1] = Some [3;3;2;2;1;1].
Proof. reflexivity. Qed.

Lemma nth_map_seq {A} (f : nat -> A) (n N : nat) (d : A) :
  n < N -> nth n (map f (seq 0 N)) d = f n.
Proof.
  intros Hn.
  rewrite (nth_indep _ d (f 0)) by (rewrite length_map, length_seq; lia).
  rewrite map_nth, seq_nth by lia. reflexivity.
Qed.

Lemma map_nth_seq_self {A} (l : list A) (d : A) :
  map (fun k => nth k l d) (seq 0 (length l)) = l.
Proof.
  apply (nth_ext _ _ d d); [rewrite length_map, length_seq; reflexivity|].
  intros n Hn. rewrite length_map, length_seq in Hn.
  rewrite nth_map_seq by exact Hn. reflexivity.
Qed.

Lemma src_index_lt (U C k : nat) : k < U * C -> src_index U C k < U * C.
Proof.
  intros Hk. unfold src_index.
  assert (HU : U <> 0) by (intros ->; lia).
  assert (HC : C <> 0) by (intros ->; lia).
  pose proof (Nat.mod_upper_bound k U HU).
  assert (k / U < C) by (apply Nat.Div0.div_lt_upper_bound; lia).
  nia.
Qed.

(** Reading the output back as a [C x U] grid undoes the regrouping. *)
Lemma src_index_inv (U C k : nat) :
  k < U * C -> src_index U C (src_index C U k) = k.
Proof.
  intros Hk. unfold src_index.
  assert (HU : U <> 0) by (intros ->; lia).
  assert (HC : C <> 0) by (intros ->; lia).
  set (a := k mod C). set (b := k / C).
  assert (Ha : a < C) by (apply Nat.mod_upper_bound; exact HC).
  assert (Hb : b < U) by (apply Nat.Div0.div_lt_upper_bound; lia).
  assert (Hk' : k = C * b + a) by (apply Nat.div_mod; exact HC).
  assert (E1 : (a * U + b) mod U = b)
    by (symmetry; apply (Nat.mod_unique _ _ a); lia).
  assert (E2 : (a * U + b) / U = a)
    by (symmetry; apply (Nat.div_unique _ _ _ b); lia).
  rewrite E1, E2. lia.
Qed.

Lemma view_transpose_reshape_ok {A} (d : A) (U C : nat) (x : list A) :
  length x = U * C ->
  view_transpose_reshape d U C x
  = Some (map (fun k => nth (src_index U C k) x d) (seq 0 (C * U))).
Proof.
  intros H. unfold view_transpose_reshape. rewrite H, Nat.eqb_refl. reflexivity.
Qed.

Lemma regroup_length {A} (d : A) (U C : nat) (x : list A) :
  length (map (fun k => nth (src_index U C k) x d) (seq 0 (C * U))) = U * C.
Proof. rewrite length_map, length_seq. lia. Qed.

Lemma regroup_nth {A} (d : A) (U C : nat) (x : list A) (k : nat) :
  k < U * C ->
  nth k (map (fun k => nth (src_index U C k) x d) (seq 0 (C * U))) d
  = nth (src_index U C k) x d.
Proof. intros Hk. apply (nth_map_seq (fun k => nth (src_index U C k) x d)). lia. Qed.

(** The inverse transpose returns the original ordering. *)
Lemma regroup_involutive {A} (d : A) (U C : nat) (x : list A) :
  length x = U * C ->
  map (fun k => nth (src_index C U k)
                  (map (fun k => nth (src_index U C k) x d) (seq 0 (C * U))) d)
      (seq 0 (U * C)) = x.
Proof.
  intros H.
  apply (nth_ext _ _ d d); [rewrite length_map, length_seq; lia|].
  intros n Hn. rewrite length_map, length_seq in Hn.
  rewrite nth_map_seq by exact Hn.
  rewrite regroup_nth by (pose proof (src_index_lt C U n); lia).
  rewrite src_index_inv by lia. reflexivity.
Qed.

(** The index map is a permutation of [0 .. U*C). *)
Lemma src_index_perm (U C : nat) :
  Permutation (map (src_index U C) (seq 0 (C * U))) (seq 0 (C * U)).
Proof.
  apply Stdlib.Sorting.Permutation.NoDup_Permutation.
  - apply NoDup_map_NoDup_ForallPairs; [|apply List.seq_NoDup].
    intros a b Ha Hb E. apply in_seq in Ha, Hb.
    rewrite <- (src_index_inv C U a) by lia.
    rewrite <- (src_index_inv C U b) by lia.
    rewrite E. reflexivity.
  - apply List.seq_NoDup.
  - intros y; rewrite in_map_iff, in_seq; split.
    + intros (k & <- & Hk). rewrite (Nat.mul_comm C U) in *.
      apply in_seq in Hk. pose proof (src_index_lt U C k). lia.
    + intros Hy. rewrite (Nat.mul_comm C U) in *. exists (src_index C U y). split.
      * apply src_index_inv. lia.
      * apply in_seq. rewrite (Nat.mul_comm U C) in *. pose proof (src_index_lt C U y). lia.
Qed.

Lemma regroup_perm {A} (d : A) (U C : nat) (x : list A) :
  length x = U * C ->
  Permutation (map (fun k => nth (src_index U C k) x d) (seq 0 (C * U))) x.
Proof.
  intros H.
  replace (map (fun k => nth (src_index U C k) x d) (seq 0 (C * U)))
    with (map (fun k => nth k x d) (map (src_index U C) (seq 0 (C * U))))
    by (rewrite map_map; reflexivity).
  transitivity (map (fun k => nth k x d) (seq 0 (C * U))).
  - apply Permutation_map, src_index_perm.
  - rewrite Nat.mul_comm, <- H, map_nth_seq_self. reflexivity.
Qed.

(** Regrouping features and labels separately regroups the pairs. *)
Lemma regroup_combine {F L} (dF : F) (dL : L) (U C : nat)
    (xs : list F) (ys : list L) :
  length xs = U * C -> length ys = U * C ->
  combine (map (fun k => nth (src_index U C k) xs dF) (seq 0 (C * U)))
          (map (fun k => nth (src_index U C k) ys dL) (seq 0 (C * U)))
  = map (fun k => nth (src_index U C k) (combine xs ys) (dF, dL)) (seq 0 (C * U)).
Proof.
  intros Hx Hy.
  apply (nth_ext _ _ (dF, dL) (dF, dL)).
  - rewrite length_combine, !length_map, !length_seq. lia.
  - intros n Hn. rewrite length_combine, !length_map, !length_seq in Hn.
    rewrite combine_nth by (rewrite !length_map; reflexivity).
    rewrite !nth_map_seq by lia.
    rewrite combine_nth by congruence. reflexivity.
Qed.

Lemma src_index_grid (U C i j : nat) :
  i < U -> j < C -> src_index U C (j * U + i) = i * C + j.
Proof.
  intros Hi Hj. unfold src_index.
  assert (E1 : (j * U + i) mod U = i)
    by (symmetry; apply (Nat.mod_unique _ _ j); lia).
  assert (E2 : (j * U + i) / U = j)
    by (symmetry; apply (Nat.div_unique _ _ _ i); lia).
  rewrite E1, E2. reflexivity.
Qed.

(** C2 (claim): for a batch of [N = num_classes_in_batch * num_utter_per_class]
    rows, the regrouping of lines 84-85 succeeds; it moves the row at input
    index [i*C + j] (utterance [i] of class [j]) to output index [j*U + i],
    a bijection of [0 .. N); features and labels move together, so the
    multiset of (feature, label) pairs is unchanged; and the inverse
    transpose (viewing the output as a [C x U] grid) restores the original
    ordering of both. *)
Theorem group_batch_bijective {F L : Type} (dF : F) (dL : L)
    (num_utter_per_class num_classes_in_batch : nat)
    (inputs : list F) (labels : list L) :
  length inputs = num_utter_per_class * num_classes_in_batch ->
  length labels = num_utter_per_class * num_classes_in_batch ->
  exists inputs' labels',
    group_batch dF dL num_utter_per_class num_classes_in_batch inputs labels
      = Some (inputs', labels')
    /\ view_transpose_reshape dF num_classes_in_batch num_utter_per_class inputs'
       = Some inputs
    /\ view_transpose_reshape dL num_classes_in_batch num_utter_per_class labels'
       = Some labels
    /\ Permutation (combine inputs' labels') (combine inputs labels)
    /\ Permutation
         (map (src_index num_utter_per_class num_classes_in_batch)
              (seq 0 (num_classes_in_batch * num_utter_per_class)))
         (seq 0 (num_classes_in_batch * num_utter_per_class))
    /\ (forall i j, i < num_utter_per_class -> j < num_classes_in_batch ->
          nth (j * num_utter_per_class + i) inputs' dF
            = nth (i * num_classes_in_batch + j) inputs dF
          /\ nth (j * num_utter_per_class + i) labels' dL
            = nth (i * num_classes_in_batch + j) labels dL).
Proof.
  set (U := num_utter_per_class). set (C := num_classes_in_batch).
  intros Hx Hy.
  set (xs' := map (fun k => nth (src_index U C k) inputs dF) (seq 0 (C * U))).
  set (ys' := map (fun k => nth (src_index U C k) labels dL) (seq 0 (C * U))).
  exists xs', ys'.
  assert (Lx : length xs' = C * U) by (subst xs'; rewrite regroup_length; lia).
  assert (Ly : length ys' = C * U) by (subst ys'; rewrite regroup_length; lia).
  unfold group_batch.
  rewrite (view_transpose_reshape_ok dL U C labels Hy).
  rewrite (view_transpose_reshape_ok dF U C inputs Hx).
  split; [reflexivity|].
  split; [rewrite (view_transpose_reshape_ok dF C U xs' Lx);
          f_equal; apply regroup_involutive; exact Hx|].
  split; [rewrite (view_transpose_reshape_ok dL C U ys' Ly);
          f_equal; apply regroup_involutive; exact Hy|].
  split.
  { subst xs' ys'. rewrite regroup_combine by assumption.
    apply regroup_perm. rewrite length_combine. lia. }
  split; [apply src_index_perm|].
  intros i j Hi Hj.
  assert (Hk : j * U + i < U * C) by nia.
  subst xs' ys'. rewrite !regroup_nth by exact Hk.
  rewrite src_index_grid by assumption. split; reflexivity.
Qed.

Lemma group_batch_bijective_witness :
  length [10;11;12;13;14;15] = 2 * 3 /\ length [3;2;1;3;2;1] = 2 * 3 /\
  (exists inputs' labels',
    group_batch 0 0 2 3 [10;11;12;13;14;15] [3;2;1;3;2;1] = Some (inputs', labels')
    /\ view_transpose_reshape 0 3 2 inputs' = Some [10;11;12;13;14;15]
    /\ view_transpose_reshape 0 3 2 labels' = Some [3;2;1;3;2;1]
    /\ Permutation (combine inputs' labels')
                   (combine [10;11;12;13;14;15] [3;2;1;3;2;1])
    /\ Permutation (map (src_index 2 3) (seq 0 (3 * 2))) (seq 0 (3 * 2))
    /\ (forall i j, i < 2 -> j < 3 ->
          nth (j * 2 + i) inputs' 0 = nth (i * 3 + j) [10;11;12;13;14;15] 0
          /\ nth (j * 2 + i) labels' 0 = nth (i * 3 + j) [3;2;1;3;2;1] 0)).
Proof.
  split; [reflexivity|]. split; [reflexivity|].
  apply (group_batch_bijective 0 0 2 3); reflexivity.
Defined.

End RegroupFacts.

Module LoopFacts.
Import Loop.

(** Binary64 facts, from the IEEE-754 specification of the primitive floats. *)
Lemma float_one_mul (x : float) : (1.0 * x)%float = x.
Proof.
  apply FloatAxioms.Prim2SF_inj. rewrite FloatAxioms.mul_spec.
  assert (E1 : Prim2SF 1.0 = S754_finite false 4503599627370496 (-52)) by reflexivity.
  rewrite E1. pose proof (FloatAxioms.Prim2SF_valid x) as Hv.
  destruct (Prim2SF x) as [s|s| |s m e]; try reflexivity.
  cbn [valid_binary] in Hv. unfold bounded, canonical_mantissa in Hv.
  apply andb_prop in Hv as [Hc Hb]. apply Z.eqb_eq in Hc. apply Z.leb_le in Hb.
  unfold FloatAxioms.SF64mul, SFmul. cbn [xorb].
  unfold binary_round_aux, shr_fexp.
  assert (Hd : Zdigits2 (Zpos (4503599627370496 * m)) = (Zpos (digits2_pos m) + 52)%Z)
    by (cbv [Pos.mul]; cbn; lia).
  rewrite Hd.
  replace (fexp prec emax (Zpos (digits2_pos m) + 52 + (-52 + e)) - (-52 + e))%Z with 52%Z
    by (replace (Zpos (digits2_pos m) + 52 + (-52 + e))%Z with (Zpos (digits2_pos m) + e)%Z
          by lia; lia).
  assert (Hi : SpecFloat.iter_pos shr_1 52 (shr_record_of_loc (Zpos (4503599627370496 * m)) loc_Exact)
               = {| shr_m := Zpos m; shr_r := false; shr_s := false |}) by reflexivity.
  cbn [shr]. rewrite Hi.
  replace (-52 + e + 52)%Z with e by lia.
  cbn [shr_m loc_of_shr_record round_nearest_even Zdigits2].
  replace (fexp prec emax (Zpos (digits2_pos m) + e) - e)%Z with 0%Z by lia.
  cbn [shr shr_record_of_loc shr_m].
  apply Z.leb_le in Hb. rewrite Hb. reflexivity.
Qed.

Lemma float_add_zero_mul (x y : float) :
  PrimFloat.is_finite y = true -> x <> PrimFloat.neg_zero ->
  (x + 0.0 * y)%float = x.
Proof.
  intros Hy Hx. apply FloatAxioms.Prim2SF_inj.
  rewrite FloatAxioms.add_spec, FloatAxioms.mul_spec.
  assert (E0 : Prim2SF 0.0 = S754_zero false) by reflexivity.
  rewrite E0.
  unfold PrimFloat.is_finite, PrimFloat.is_nan, PrimFloat.is_infinity in Hy.
  rewrite !FloatAxioms.eqb_spec, FloatAxioms.abs_spec in Hy.
  assert (Ei : Prim2SF PrimFloat.infinity = S754_infinity false) by reflexivity.
  rewrite Ei in Hy.
  assert (Hz : exists sy, SFmul prec emax (S754_zero false) (Prim2SF y) = S754_zero sy).
  { destruct (Prim2SF y) as [s|s| |s m e]; try destruct s; cbn in Hy |- *;
      try discriminate; eexists; reflexivity. }
  destruct Hz as [sy Hz]. unfold FloatAxioms.SF64mul. rewrite Hz.
  unfold FloatAxioms.SF64add.
  destruct (Prim2SF x) as [sx|sx| |sx mx ex] eqn:Ex; cbn; try reflexivity.
  destruct sx.
  - exfalso. apply Hx. apply FloatAxioms.Prim2SF_inj. rewrite Ex. reflexivity.
  - destruct sy; reflexivity.
Qed.

Lemma py_mod_is_zero_some (a b : Z) (r : bool) :
  py_mod_is_zero a b = Some r -> b <> 0%Z /\ r = (a mod b =? 0)%Z.
Proof.
  unfold py_mod_is_zero. destruct (Z.eqb_spec b 0); intros H; [discriminate|].
  injection H as <-. auto.
Qed.

Lemma py_mod_is_zero_nz (a b : Z) :
  b <> 0%Z -> py_mod_is_zero a b = Some (a mod b =? 0)%Z.
Proof. intros H. unfold py_mod_is_zero. apply Z.eqb_neq in H. rewrite H. reflexivity. Qed.

(** What one successful iteration does to the loop variables. *)
Lemma train_step_fields (c : TrainConfig) (s s' : TrainState) (o : Obs) (b : bool) :
  train_step c s o = Some (s', b) ->
  let gs := (global_step s + 1)%Z in
  let al := ema_loss (avg_loss s) (obs_loss o) in
  let trig := ((max_train_step c <=? gs) || (gs mod save_step c =? 0))%Z in
  let written := trig && PrimFloat.ltb al (best_loss s) in
  global_step s' = gs
  /\ avg_loss s' = al
  /\ avg_loader_time s'
     = ema_loader_time (loader_workers c) (avg_loader_time s) (obs_loader_time o)
  /\ b = (max_train_step c <=? gs)%Z
  /\ best_loss s' = (if written then al else best_loss s)
  /\ checkpoints s' = (if written then gs :: checkpoints s else checkpoints s).
Proof.
  intros H. cbv zeta. unfold train_step in H. cbv zeta in H.
  destruct (py_mod_is_zero _ (steps_plot_stats c)); [|discriminate].
  destruct (py_mod_is_zero _ (print_step c)); [|discriminate].
  destruct (max_train_step c <=? global_step s + 1)%Z eqn:Emax.
  - injection H as <- <-. cbn [orb].
    unfold save_block, save_best_model; cbn.
    destruct (PrimFloat.ltb _ _); repeat split; reflexivity.
  - cbn [orb].
    destruct (py_mod_is_zero (global_step s + 1) (save_step c)) as [r|] eqn:Es;
      [|discriminate].
    apply py_mod_is_zero_some in Es as [_ ->].
    destruct ((global_step s + 1) mod save_step c =? 0)%Z.
    + injection H as <- <-. unfold save_block, save_best_model; cbn.
      destruct (PrimFloat.ltb _ _); repeat split; reflexivity.
    + injection H as <- <-. repeat split; reflexivity.
Qed.

Lemma save_block_global_step (s : TrainState) :
  global_step (save_block s) = global_step s.
Proof. unfold save_block, save_best_model. destruct (PrimFloat.ltb _ _); reflexivity. Qed.

Lemma save_block_avg_loss (s : TrainState) : avg_loss (save_block s) = avg_loss s.
Proof. unfold save_block, save_best_model. destruct (PrimFloat.ltb _ _); reflexivity. Qed.

Lemma save_block_checkpoints (s : TrainState) :
  checkpoints (save_block s)
  = if PrimFloat.ltb (avg_loss s) (best_loss s) then global_step s :: checkpoints s
    else checkpoints s.
Proof. unfold save_block, save_best_model. destruct (PrimFloat.ltb _ _); reflexivity. Qed.

(** An iteration only fails on a zero cadence divisor. *)
Lemma train_step_total (c : TrainConfig) (s : TrainState) (o : Obs) :
  steps_plot_stats c <> 0%Z -> print_step c <> 0%Z -> save_step c <> 0%Z ->
  exists s' b, train_step c s o = Some (s', b).
Proof.
  intros H1 H2 H3. unfold train_step. cbv zeta.
  rewrite !py_mod_is_zero_nz by assumption.
  destruct (max_train_step c <=? global_step s + 1)%Z; [eauto|].
  destruct (_ mod _ =? 0)%Z; eauto.
Qed.

(** The loop processes [min (length bs) (max 1 (max_train_step - global_step))]
    batches, adding one to [global_step] for each. *)
Lemma train_loop_count (c : TrainConfig) (bs : list Obs) (s : TrainState) :
  steps_plot_stats c <> 0%Z -> print_step c <> 0%Z -> save_step c <> 0%Z ->
  exists s' n, train_loop c s bs = Some (s', n)
    /\ global_step s' = (global_step s + Z.of_nat n)%Z
    /\ n = Nat.min (length bs)
                   (Z.to_nat (Z.max 1 (max_train_step c - global_step s))).
Proof.
  intros H1 H2 H3. revert s.
  induction bs as [|o bs IH]; intros s.
  - exists s, 0%nat. cbn. repeat split; lia.
  - destruct (train_step_total c s o H1 H2 H3) as (s1 & b & Hs).
    pose proof (train_step_fields c s s1 o b Hs) as (Hg & _ & _ & Hb & _).
    cbn [train_loop]. rewrite Hs.
    destruct b.
    + exists s1, 1%nat. split; [reflexivity|].
      symmetry in Hb. apply Z.leb_le in Hb. cbn [length]. split; lia.
    + symmetry in Hb. apply Z.leb_gt in Hb.
      destruct (IH s1) as (s2 & n & Hl & Hg2 & Hn).
      rewrite Hl. exists s2, (S n). split; [reflexivity|].
      cbn [length]. split; lia.
Qed.

(** Below the budget, a pass appends only checkpoints at multiples of
    [save_step], and only at the steps it runs. *)
Lemma train_loop_short (c : TrainConfig) (bs : list Obs) (s : TrainState) :
  steps_plot_stats c <> 0%Z -> print_step c <> 0%Z -> save_step c <> 0%Z ->
  (global_step s + Z.of_nat (length bs) < max_train_step c)%Z ->
  exists s', train_loop c s bs = Some (s', length bs)
    /\ global_step s' = (global_step s + Z.of_nat (length bs))%Z
    /\ exists fresh, checkpoints s' = fresh ++ checkpoints s
         /\ Forall (fun g => (g mod save_step c = 0)%Z
                            /\ (global_step s < g <= global_step s + Z.of_nat (length bs))%Z)
                   fresh.
Proof.
  intros H1 H2 H3. revert s.
  induction bs as [|o bs IH]; intros s Hlt.
  - exists s. cbn. split; [reflexivity|]. split; [lia|]. exists []. split; auto.
  - cbn [length] in Hlt.
    destruct (train_step_total c s o H1 H2 H3) as (s1 & b & Hs).
    pose proof (train_step_fields c s s1 o b Hs) as (Hg & _ & _ & Hb & _ & Hck).
    assert (Emax : (max_train_step c <=? global_step s + 1)%Z = false)
      by (apply Z.leb_gt; lia).
    rewrite Emax in Hb, Hck. subst b.
    destruct (IH s1 ltac:(lia)) as (s2 & Hl & Hg2 & fresh & Hf & Hall).
    exists s2. cbn [train_loop length]. rewrite Hs, Hl.
    split; [reflexivity|]. split; [lia|].
    cbn [orb] in Hck.
    destruct ((global_step s + 1) mod save_step c =? 0)%Z eqn:Em;
      [destruct (PrimFloat.ltb _ _)|]; cbn [andb] in Hck.
    + exists (fresh ++ [global_step s + 1]%Z). rewrite Hf, Hck, <- app_assoc.
      split; [reflexivity|]. apply Forall_app. split.
      * eapply Forall_impl; [exact Hall|]. intros g [Hm Hr]. split; [exact Hm|lia].
      * constructor; [|constructor]. split; [apply Z.eqb_eq; exact Em|lia].
    + exists fresh. rewrite Hf, Hck. split; [reflexivity|].
      eapply Forall_impl; [exact Hall|]. intros g [Hm Hr]. split; [exact Hm|lia].
    + exists fresh. rewrite Hf, Hck. split; [reflexivity|].
      eapply Forall_impl; [exact Hall|]. intros g [Hm Hr]. split; [exact Hm|lia].
Qed.

(** C1 (amended): [global_step] grows by exactly one per processed batch and
    the loop breaks right after the first batch that brings it to
    [max_train_step] or beyond, returning [(avg_loss, global_step)]: from an
    initial [global_step0] it processes
    [min (#batches) (max 1 (max_train_step - global_step0))] batches. So when
    [global_step0 < max_train_step] the final step count is at most
    [max_train_step]; when [global_step0 >= max_train_step] one batch is still
    processed. (Zero cadence steps raise ZeroDivisionError instead.) *)
Theorem train_step_budget (c : TrainConfig) (bs : list Obs) (global_step0 : Z) :
  steps_plot_stats c <> 0%Z -> print_step c <> 0%Z -> save_step c <> 0%Z ->
  exists s' n, train c bs global_step0 = Some (s', n)
    /\ train_result (s', n) = (avg_loss s', (global_step0 + Z.of_nat n)%Z)
    /\ n = Nat.min (length bs)
                   (Z.to_nat (Z.max 1 (max_train_step c - global_step0)))
    /\ ((global_step0 < max_train_step c)%Z ->
          (global_step0 + Z.of_nat n <= max_train_step c)%Z
          /\ ((global_step0 + Z.of_nat n = max_train_step c)%Z \/ n = length bs))
    /\ ((max_train_step c <= global_step0)%Z -> bs <> [] -> n = 1%nat).
Proof.
  intros H1 H2 H3.
  destruct (train_loop_count c bs (init_state global_step0) H1 H2 H3)
    as (s' & n & Hl & Hg & Hn).
  cbn [global_step init_state] in Hg, Hn.
  exists s', n. unfold train. rewrite Hl.
  split; [reflexivity|].
  split; [unfold train_result; cbn; rewrite Hg; reflexivity|].
  split; [exact Hn|].
  split.
  - intros Hlt. lia.
  - intros Hge Hne. destruct bs as [|o bs]; [congruence|]. cbn [length] in Hn. lia.
Qed.

Lemma train_step_budget_witness :
  (10 <> 0)%Z /\ (20 <> 0)%Z /\ (1000 <> 0)%Z /\
  exists s' n,
    train (Build_TrainConfig 5 1000 20 10 0)
          (repeat (Build_Obs 1 0.1) 7) 0 = Some (s', n)
    /\ train_result (s', n) = (avg_loss s', (0 + Z.of_nat n)%Z)
    /\ n = Nat.min (length (repeat (Build_Obs 1 0.1) 7)) (Z.to_nat (Z.max 1 (5 - 0)))
    /\ ((0 < 5)%Z -> (0 + Z.of_nat n <= 5)%Z
                      /\ ((0 + Z.of_nat n = 5)%Z \/ n = length (repeat (Build_Obs 1 0.1) 7)))
    /\ ((5 <= 0)%Z -> repeat (Build_Obs 1 0.1) 7 <> [] -> n = 1%nat).
Proof.
  split; [lia|]. split; [lia|]. split; [lia|].
  apply (train_step_budget (Build_TrainConfig 5 1000 20 10 0)); cbn; lia.
Defined.

(** C1 (counterexample): resuming from a checkpoint whose step already equals
    [max_train_step = 5], the loop still processes a batch and returns with
    [global_step = 6 = max_train_step + 1]. *)
Lemma train_step_budget_restored_cex :
  exists s',
    train (Build_TrainConfig 5 1000 20 10 0)
          [Build_Obs 1 0.1; Build_Obs 1 0.1] 5 = Some (s', 1%nat)
    /\ global_step s' = 6%Z
    /\ (global_step s' > max_train_step (Build_TrainConfig 5 1000 20 10 0))%Z.
Proof. eexists. split; [vm_compute; reflexivity|]. split; reflexivity. Qed.

(** C3 (amended): each iteration sets [avg_loss] to the new loss when the
    previous [avg_loss] equals [0] and to [0.01 * L + 0.99 * avg_loss]
    otherwise; from the initial state ([avg_loss = 0]) the first observation
    therefore becomes [avg_loss] exactly. *)
Theorem train_avg_loss_update (c : TrainConfig) (global_step0 : Z)
    (s s' : TrainState) (o : Obs) (b : bool) :
  train_step c s o = Some (s', b) ->
  avg_loss s' = (if PrimFloat.eqb (avg_loss s) 0 then obs_loss o
                 else 0.01 * obs_loss o + 0.99 * avg_loss s)%float
  /\ (s = init_state global_step0 -> avg_loss s' = obs_loss o).
Proof.
  intros H. pose proof (train_step_fields c s s' o b H) as (_ & Ha & _).
  rewrite Ha. unfold ema_loss.
  split; [destruct (PrimFloat.eqb _ _); reflexivity|].
  intros ->. reflexivity.
Qed.

Lemma train_avg_loss_update_witness :
  (exists s' b,
     train_step (Build_TrainConfig 1000000 1000 20 10 0) (init_state 0) (Build_Obs 2 0.1)
       = Some (s', b)
     /\ avg_loss s' = 2%float)
  /\ (exists s' b,
     train_step (Build_TrainConfig 1000000 1000 20 10 0) state_after_one (Build_Obs 4 0.1)
       = Some (s', b)
     /\ avg_loss s'
        = (if PrimFloat.eqb (avg_loss state_after_one) 0 then 4
           else 0.01 * 4 + 0.99 * avg_loss state_after_one)%float
     /\ PrimFloat.eqb (avg_loss state_after_one) 0 = false).
Proof.
  split.
  - destruct (train_step (Build_TrainConfig 1000000 1000 20 10 0) (init_state 0)
                (Build_Obs 2 0.1)) as [[s' b]|] eqn:E; [|vm_compute in E; discriminate].
    exists s', b. split; [reflexivity|].
    exact (proj2 (train_avg_loss_update _ 0 _ _ _ _ E) eq_refl).
  - destruct (train_step (Build_TrainConfig 1000000 1000 20 10 0) state_after_one
                (Build_Obs 4 0.1)) as [[s' b]|] eqn:E; [|vm_compute in E; discriminate].
    exists s', b. split; [reflexivity|]. split; [|vm_compute; reflexivity].
    exact (proj1 (train_avg_loss_update _ 0 _ _ _ _ E)).
Defined.

(** C3 (counterexample): with a first loss of exactly [0.0] the average stays
    [0], and the second loss [5.0] then replaces it instead of being averaged:
    [avg_1 = 5], not [0.01 * 5 + 0.99 * avg_0]. *)
Lemma train_avg_loss_zero_cex :
  exists s1 s2,
    train (Build_TrainConfig 1000000 1000 20 10 0) [Build_Obs 0 0.1] 0 = Some (s1, 1%nat)
    /\ train (Build_TrainConfig 1000000 1000 20 10 0)
             [Build_Obs 0 0.1; Build_Obs 5 0.1] 0 = Some (s2, 2%nat)
    /\ avg_loss s1 = 0%float
    /\ avg_loss s2 = 5%float
    /\ PrimFloat.eqb (avg_loss s2) (0.01 * 5 + 0.99 * avg_loss s1)%float = false.
Proof.
  do 2 eexists. split; [vm_compute; reflexivity|].
  split; [vm_compute; reflexivity|].
  split; [reflexivity|]. split; [reflexivity|]. vm_compute. reflexivity.
Qed.

(** C8 (amended): each iteration sets [avg_loader_time] to the new loader time
    when the previous average equals [0] (so in particular at the first
    iteration), and otherwise to
    [1/nw * new + (nw-1)/nw * avg_loader_time] with [nw] the configured
    worker count, or [1] when that count is not positive. For at most one
    worker the weights are [1/1 = 1.0] and [0/1 = 0.0], so the average is the
    newest loader time whenever the previous average is finite and the new
    time is not [-0.0] (a difference of two clock readings never is). *)
Theorem train_avg_loader_time_update (c : TrainConfig) (s s' : TrainState)
    (o : Obs) (b : bool) :
  train_step c s o = Some (s', b) ->
  avg_loader_time s'
    = (if PrimFloat.eqb (avg_loader_time s) 0 then obs_loader_time o
       else float_of_int 1 / float_of_int (loader_workers c) * obs_loader_time o
            + float_of_int (loader_workers c - 1) / float_of_int (loader_workers c)
              * avg_loader_time s)%float
  /\ ((num_loader_workers c <= 1)%Z ->
      loader_workers c = 1%Z
      /\ avg_loader_time s'
         = (if PrimFloat.eqb (avg_loader_time s) 0 then obs_loader_time o
            else 1.0 * obs_loader_time o + 0.0 * avg_loader_time s)%float
      /\ (PrimFloat.is_finite (avg_loader_time s) = true ->
          obs_loader_time o <> PrimFloat.neg_zero ->
          avg_loader_time s' = obs_loader_time o)).
Proof.
  intros H. pose proof (train_step_fields c s s' o b H) as (_ & _ & Ht & _).
  rewrite Ht. unfold ema_loader_time.
  split; [destruct (PrimFloat.eqb _ _); reflexivity|].
  intros Hle.
  assert (Hw : loader_workers c = 1%Z).
  { unfold loader_workers. destruct (Z.ltb_spec 0 (num_loader_workers c)); lia. }
  split; [exact Hw|]. rewrite Hw.
  replace (float_of_int 1 / float_of_int 1)%float with 1.0%float
    by (vm_compute; reflexivity).
  replace (float_of_int (1 - 1) / float_of_int 1)%float with 0.0%float
    by (vm_compute; reflexivity).
  split; [destruct (PrimFloat.eqb _ _); reflexivity|].
  intros Hfin Hnz.
  destruct (PrimFloat.eqb _ _); cbn [negb]; [reflexivity|].
  rewrite float_one_mul. apply float_add_zero_mul; assumption.
Qed.

Lemma neq_neg_zero_02 : (0.2 <> PrimFloat.neg_zero)%float.
Proof.
  intros H. apply (f_equal (fun f => PrimFloat.eqb f 0%float)) in H.
  vm_compute in H. discriminate.
Qed.

Lemma train_avg_loader_time_update_witness :
  (exists s' b,
     train_step (Build_TrainConfig 1000000 1000 20 10 2) state_after_one (Build_Obs 3 0.2)
       = Some (s', b)
     /\ avg_loader_time s'
        = (if PrimFloat.eqb (avg_loader_time state_after_one) 0 then 0.2
           else float_of_int 1 / float_of_int 2 * 0.2
                + float_of_int (2 - 1) / float_of_int 2 * avg_loader_time state_after_one)%float)
  /\ (exists s' b,
     train_step (Build_TrainConfig 1000000 1000 20 10 1) state_after_one (Build_Obs 3 0.2)
       = Some (s', b)
     /\ avg_loader_time s' = 0.2%float).
Proof.
  split.
  - destruct (train_step (Build_TrainConfig 1000000 1000 20 10 2) state_after_one
                (Build_Obs 3 0.2)) as [[s' b]|] eqn:E; [|vm_compute in E; discriminate].
    exists s', b. split; [reflexivity|].
    exact (proj1 (train_avg_loader_time_update _ _ _ _ _ E)).
  - destruct (train_step (Build_TrainConfig 1000000 1000 20 10 1) state_after_one
                (Build_Obs 3 0.2)) as [[s' b]|] eqn:E; [|vm_compute in E; discriminate].
    exists s', b. split; [reflexivity|].
    destruct (proj2 (train_avg_loader_time_update _ _ _ _ _ E) ltac:(cbn; lia))
      as (_ & _ & Hnew).
    exact (Hnew ltac:(vm_compute; reflexivity) neq_neg_zero_02).
Defined.

(** C8 (counterexample): with two workers, a first loader time of exactly
    [0.0] (two equal clock readings) leaves the average at [0], and the next
    time [0.5] then replaces it: [0.5], not [1/2 * 0.5 + 1/2 * 0 = 0.25]. *)
Lemma train_avg_loader_time_zero_cex :
  exists s1 s2,
    train (Build_TrainConfig 1000000 1000 20 10 2) [Build_Obs 1 0] 0 = Some (s1, 1%nat)
    /\ train (Build_TrainConfig 1000000 1000 20 10 2)
             [Build_Obs 1 0; Build_Obs 1 0.5] 0 = Some (s2, 2%nat)
    /\ avg_loader_time s1 = 0%float
    /\ avg_loader_time s2 = 0.5%float
    /\ PrimFloat.eqb (avg_loader_time s2)
         (float_of_int 1 / float_of_int 2 * 0.5
          + float_of_int 1 / float_of_int 2 * avg_loader_time s1)%float = false.
Proof.
  do 2 eexists. split; [vm_compute; reflexivity|].
  split; [vm_compute; reflexivity|].
  split; [reflexivity|]. split; [reflexivity|]. vm_compute. reflexivity.
Qed.

(** C4 (claim): an iteration writes a checkpoint exactly when its
    [global_step] has reached [max_train_step] or is a multiple of
    [save_step] and its smoothed loss is below the best-loss watermark, which
    it then lowers to that loss; and with [max_train_step = 5],
    [save_step = 1000], starting from step 0 with at least 5 batches, the loop
    exits after exactly 5 batches with [global_step = 5], the only save
    trigger being the step-5 one of [max_train_step], which writes the
    checkpoint of step 5 whenever the smoothed loss is below the initial
    watermark [inf] (it is the best seen so far). *)
Theorem train_checkpoint_trigger (c : TrainConfig) :
  (forall (s s' : TrainState) (o : Obs) (b : bool),
     train_step c s o = Some (s', b) ->
     let gs := (global_step s + 1)%Z in
     let trig := ((max_train_step c <=? gs) || (gs mod save_step c =? 0))%Z in
     let written := trig && PrimFloat.ltb (avg_loss s') (best_loss s) in
     checkpoints s' = (if written then gs :: checkpoints s else checkpoints s)
     /\ best_loss s' = (if written then avg_loss s' else best_loss s))
  /\ (max_train_step c = 5%Z -> save_step c = 1000%Z ->
      steps_plot_stats c <> 0%Z -> print_step c <> 0%Z ->
      forall bs : list Obs, (5 <= length bs)%nat ->
      exists s', train c bs 0 = Some (s', 5%nat)
        /\ global_step s' = 5%Z
        /\ checkpoints s' = (if PrimFloat.ltb (avg_loss s') PrimFloat.infinity
                             then [5%Z] else [])).
Proof.
  split.
  - intros s s' o b H gs trig written.
    pose proof (train_step_fields c s s' o b H) as (_ & Ha & _ & _ & Hb & Hc).
    subst gs trig written. rewrite Ha. split; assumption.
  - intros Hm Hs Hpl Hpr bs Hlen.
    destruct c as [mx sv pr pl nw]; cbn in Hm, Hs, Hpl, Hpr; subst mx sv.
    apply Z.eqb_neq in Hpl, Hpr.
    destruct bs as [|o1 [|o2 [|o3 [|o4 [|o5 bs]]]]]; cbn [length] in Hlen; try lia.
    unfold train, train_loop, train_step, py_mod_is_zero. cbn -[ema_loss ema_loader_time].
    rewrite !Hpl, !Hpr. cbn -[ema_loss ema_loader_time].
    eexists. split; [reflexivity|].
    rewrite save_block_global_step, save_block_checkpoints, save_block_avg_loss.
    split; [reflexivity|]. reflexivity.
Qed.

Lemma train_checkpoint_trigger_witness :
  (train_step (Build_TrainConfig 5 1000 20 10 0) (init_state 4) (Build_Obs 2 0.1)
     = Some ({| global_step := 5; avg_loss := 2; avg_loader_time := 0.1;
                best_loss := 2; avg_loss_all := 0; checkpoints := [5%Z] |}, true)
   /\ checkpoints {| global_step := 5; avg_loss := 2; avg_loader_time := 0.1;
                     best_loss := 2; avg_loss_all := 0; checkpoints := [5%Z] |} = [5%Z])
  /\ ((5 <= length (repeat (Build_Obs 2 0.1) 6))%nat /\
      exists s', train (Build_TrainConfig 5 1000 20 10 0) (repeat (Build_Obs 2 0.1) 6) 0
                 = Some (s', 5%nat)
        /\ global_step s' = 5%Z
        /\ checkpoints s' = (if PrimFloat.ltb (avg_loss s') PrimFloat.infinity
                             then [5%Z] else [])).
Proof.
  destruct (train_checkpoint_trigger (Build_TrainConfig 5 1000 20 10 0)) as [HA HB].
  split.
  - assert (H : train_step (Build_TrainConfig 5 1000 20 10 0) (init_state 4)
                  (Build_Obs 2 0.1)
                = Some ({| global_step := 5; avg_loss := 2; avg_loader_time := 0.1;
                           best_loss := 2; avg_loss_all := 0;
                           checkpoints := [5%Z] |}, true)) by (vm_compute; reflexivity).
    split; [exact H|]. destruct (HA _ _ _ _ H) as [E _]. rewrite E. reflexivity.
  - split; [cbn; lia|]. apply HB; cbn; lia.
Defined.

(** C10 (claim): the loop makes one pass over the loader's batches; when
    they are fewer than [max_train_step - global_step0], it processes them all
    and returns with [global_step = global_step0 + #batches < max_train_step],
    so the [max_train_step] trigger never fires; every checkpoint written is
    at a step of the run that is a multiple of [save_step]. *)
Theorem train_loader_exhausted (c : TrainConfig) (bs : list Obs) (global_step0 : Z) :
  steps_plot_stats c <> 0%Z -> print_step c <> 0%Z -> save_step c <> 0%Z ->
  (global_step0 + Z.of_nat (length bs) < max_train_step c)%Z ->
  exists s', train c bs global_step0 = Some (s', length bs)
    /\ train_result (s', length bs)
       = (avg_loss s', (global_step0 + Z.of_nat (length bs))%Z)
    /\ (global_step s' < max_train_step c)%Z
    /\ Forall (fun g => (g mod save_step c = 0)%Z
                        /\ (global_step0 < g <= global_step0 + Z.of_nat (length bs))%Z)
              (checkpoints s').
Proof.
  intros H1 H2 H3 Hlt.
  destruct (train_loop_short c bs (init_state global_step0) H1 H2 H3 Hlt)
    as (s' & Hl & Hg & fresh & Hf & Hall).
  cbn [global_step checkpoints init_state] in Hg, Hf, Hall.
  exists s'. unfold train. rewrite Hl. split; [reflexivity|].
  split; [unfold train_result; cbn; rewrite Hg; reflexivity|].
  split; [lia|]. rewrite Hf, app_nil_r. exact Hall.
Qed.

Lemma train_loader_exhausted_witness :
  (10 <> 0)%Z /\ (20 <> 0)%Z /\ (2 <> 0)%Z /\
  (0 + Z.of_nat (length (repeat (Build_Obs 2 0.1) 5)) < 100)%Z /\
  exists s', train (Build_TrainConfig 100 2 20 10 0) (repeat (Build_Obs 2 0.1) 5) 0
             = Some (s', length (repeat (Build_Obs 2 0.1) 5))
    /\ train_result (s', length (repeat (Build_Obs 2 0.1) 5))
       = (avg_loss s', (0 + Z.of_nat (length (repeat (Build_Obs 2 0.1) 5)))%Z)
    /\ (global_step s' < 100)%Z
    /\ Forall (fun g => (g mod 2 = 0)%Z
                        /\ (0 < g <= 0 + Z.of_nat (length (repeat (Build_Obs 2 0.1) 5)))%Z)
              (checkpoints s').
Proof.
  split; [lia|]. split; [lia|]. split; [lia|]. split; [cbn; lia|].
  apply (train_loader_exhausted (Build_TrainConfig 100 2 20 10 0)); cbn; lia.
Defined.

End LoopFacts.

Module ConfigFacts.
Import Config.

(** C5 (claim): a configuration whose [model_params["input_dim"]] differs
    from [audio.num_mels] fails validation, and the run stops there with no
    training resource allocated (after a passing parent check with the batch
    fields set, the failure is the [input_dim] assertion); when they are
    equal, this condition adds no failure: validation passes exactly when the
    parent check passes and the batch fields are set. *)
Theorem check_values_input_dim
    (base_check_values : EncoderConfig -> option PyExc)
    (cfg : EncoderConfig) (v : PyVal) :
  model_params cfg !! "input_dim"%string = Some v ->
  (py_eq_int v (num_mels (audio cfg)) = false ->
     (exists e, check_values base_check_values cfg = Some e
                /\ run_encoder_training base_check_values cfg = ([], Some e))
     /\ (base_check_values cfg = None -> batch_fields_set cfg = true ->
         check_values base_check_values cfg = Some (AssertionError input_dim_msg)))
  /\ (py_eq_int v (num_mels (audio cfg)) = true ->
      (check_values base_check_values cfg = None
       <-> base_check_values cfg = None /\ batch_fields_set cfg = true)).
Proof.
  intros Hv. unfold run_encoder_training, check_values. rewrite Hv.
  split.
  - intros Hne. rewrite Hne.
    split.
    + destruct (base_check_values cfg) as [e|].
      * exists e. split; reflexivity.
      * destruct (batch_fields_set cfg); cbn [negb].
        -- exists (AssertionError input_dim_msg). split; reflexivity.
        -- exists AttributeError. split; reflexivity.
    + intros -> ->. reflexivity.
  - intros Heq. rewrite Heq.
    destruct (base_check_values cfg); [split; [discriminate|intros [[=] _]]|].
    destruct (batch_fields_set cfg); cbn [negb].
    + split; [intros _; split; reflexivity|reflexivity].
    + split; [discriminate|intros [_ [=]]].
Qed.

Lemma check_values_input_dim_witness :
  let cfg := {| audio := {| num_mels := 80 |};
                model_params := <["input_dim"%string := PyInt 64]> ∅;
                num_classes_in_batch := PyInt 10; num_utter_per_class := PyInt 5;
                num_loader_workers := PyInt 4 |} in
  let cfg' := {| audio := {| num_mels := 80 |};
                 model_params := <["input_dim"%string := PyFloat 80.0]> ∅;
                 num_classes_in_batch := PyInt 10; num_utter_per_class := PyInt 5;
                 num_loader_workers := PyInt 4 |} in
  run_encoder_training (fun _ => None) cfg = ([], Some (AssertionError input_dim_msg))
  /\ check_values (fun _ => None) cfg = Some (AssertionError input_dim_msg)
  /\ check_values (fun _ => None) cfg' = None.
Proof.
  intros cfg cfg'.
  assert (Hv : model_params cfg !! "input_dim"%string = Some (PyInt 64))
    by reflexivity.
  destruct (check_values_input_dim (fun _ => None) cfg (PyInt 64) Hv) as [Hne _].
  destruct (Hne eq_refl) as [(e & He & Hr) Hassert].
  rewrite (Hassert eq_refl eq_refl) in He. injection He as <-.
  split; [exact Hr|]. split; [exact (Hassert eq_refl eq_refl)|].
  assert (Hv' : model_params cfg' !! "input_dim"%string = Some (PyFloat 80.0))
    by reflexivity.
  destruct (check_values_input_dim (fun _ => None) cfg' (PyFloat 80.0) Hv') as [_ Heq].
  apply (Heq ltac:(vm_compute; reflexivity)). split; reflexivity.
Defined.

(** C9 (claim): the batch-composition fields [num_classes_in_batch],
    [num_utter_per_class] and [num_loader_workers] default to [MISSING]; a
    configuration in which any of them still holds it fails validation, with
    no training resource allocated (after a passing parent check, with the
    AttributeError of [asdict]), instead of running with a default. *)
Theorem batch_fields_mandatory
    (base_check_values : EncoderConfig -> option PyExc) (cfg : EncoderConfig) :
  num_classes_in_batch cfg = MISSING \/ num_utter_per_class cfg = MISSING
  \/ num_loader_workers cfg = MISSING ->
  exists e, check_values base_check_values cfg = Some e
    /\ run_encoder_training base_check_values cfg = ([], Some e)
    /\ (base_check_values cfg = None -> e = AttributeError).
Proof.
  intros Hm.
  assert (Hs : batch_fields_set cfg = false).
  { unfold batch_fields_set.
    destruct Hm as [H | [H | H]]; rewrite H; cbn [is_missing];
      rewrite ?orb_true_r; reflexivity. }
  unfold run_encoder_training, check_values. rewrite Hs. cbn [negb].
  destruct (base_check_values cfg) as [e|].
  - exists e. split; [reflexivity|]. split; [reflexivity|discriminate].
  - exists AttributeError. split; [reflexivity|]. split; reflexivity.
Qed.

Lemma batch_fields_mandatory_witness :
  let cfg := {| audio := {| num_mels := 80 |};
                model_params := <["input_dim"%string := PyInt 80]> ∅;
                num_classes_in_batch := PyInt 10; num_utter_per_class := MISSING;
                num_loader_workers := PyInt 4 |} in
  exists e, check_values (fun _ => None) cfg = Some e
    /\ run_encoder_training (fun _ => None) cfg = ([], Some e)
    /\ ((fun _ : EncoderConfig => @None PyExc) cfg = None -> e = AttributeError).
Proof.
  intros cfg.
  apply (batch_fields_mandatory (fun _ => None) cfg).
  right; left; reflexivity.
Defined.

End ConfigFacts.

Module RestoreFacts.
Import Restore.

Lemma set_init_lookup (params sd : StateDict) (k : string) :
  set_init_dict params sd !! k
  = params !! k ≫= (fun p => Some (if shape_matches sd k p
                                   then default p (sd !! k) else p)).
Proof. unfold set_init_dict. apply map_lookup_imap. Qed.

(** What the strict load copies is what the partial load copies. *)
Lemma load_state_dict_fst (params sd : StateDict) :
  fst (load_state_dict params sd) = set_init_dict params sd.
Proof.
  apply map_eq_iff. intros k. unfold load_state_dict. cbn [fst].
  rewrite set_init_lookup, map_lookup_imap.
  destruct (params !! k) as [p|]; cbn; [|reflexivity].
  unfold shape_matches. destruct (sd !! k) as [t|]; cbn; [|reflexivity].
  destruct (bool_decide _); reflexivity.
Qed.

Lemma set_init_shape (params sd : StateDict) (k : string) (q : Tensor) :
  set_init_dict params sd !! k = Some q ->
  exists p, params !! k = Some p /\ shape q = shape p.
Proof.
  rewrite set_init_lookup. destruct (params !! k) as [p|]; cbn; [|discriminate].
  intros [= <-]. exists p. split; [reflexivity|].
  unfold shape_matches. destruct (sd !! k) as [t|]; cbn; [|reflexivity].
  destruct (bool_decide (shape t = shape p)) eqn:E; cbn; [|reflexivity].
  apply bool_decide_eq_true in E. exact E.
Qed.

Lemma set_init_idem (m sd : StateDict) :
  set_init_dict (set_init_dict m sd) sd = set_init_dict m sd.
Proof.
  apply map_eq_iff. intros k. rewrite !set_init_lookup.
  destruct (m !! k) as [p|]; cbn; [|reflexivity].
  unfold shape_matches. destruct (sd !! k) as [t|]; cbn; [|reflexivity].
  destruct (bool_decide (shape t = shape p)) eqn:E; cbn.
  - destruct (bool_decide (shape t = shape t)); reflexivity.
  - rewrite E. reflexivity.
Qed.

(** Loading a partial-load result into the module copies all of it. *)
Lemma set_init_onto (m sd : StateDict) :
  set_init_dict m (set_init_dict m sd) = set_init_dict m sd.
Proof.
  apply map_eq_iff. intros k. rewrite (set_init_lookup m (set_init_dict m sd) k).
  destruct (m !! k) as [p|] eqn:Hk; cbn.
  - destruct (set_init_dict m sd !! k) as [q|] eqn:Eq.
    + destruct (set_init_shape _ _ _ _ Eq) as (p' & Hp' & Hs).
      rewrite Hk in Hp'. injection Hp' as <-.
      unfold shape_matches. rewrite Eq. cbn. rewrite bool_decide_eq_true_2 by exact Hs.
      reflexivity.
    + rewrite set_init_lookup, Hk in Eq. discriminate.
  - rewrite set_init_lookup, Hk. reflexivity.
Qed.

(** The strict load of a module's own partial-load result never raises. *)
Lemma load_set_init_ok (m sd : StateDict) :
  snd (load_state_dict m (set_init_dict m sd)) = true.
Proof.
  unfold load_state_dict. cbn [snd]. apply andb_true_intro. split.
  - apply bool_decide_eq_true. apply set_eq. intros k. rewrite !elem_of_dom.
    rewrite set_init_lookup. destruct (m !! k); cbn; [|reflexivity].
    split; intros _; eexists; reflexivity.
  - apply bool_decide_eq_true. apply map_Forall_lookup. intros k p Hk.
    unfold shape_matches. destruct (set_init_dict m sd !! k) as [q|] eqn:Eq.
    + destruct (set_init_shape _ _ _ _ Eq) as (p' & Hp' & Hs).
      rewrite Hk in Hp'. injection Hp' as <-. apply bool_decide_eq_true. exact Hs.
    + rewrite set_init_lookup, Hk in Eq. discriminate.
Qed.

Lemma fallback_load (m sd : StateDict) :
  load_state_dict (set_init_dict m sd) (set_init_dict (set_init_dict m sd) sd)
  = (set_init_dict m sd, true).
Proof.
  set (M1 := set_init_dict m sd).
  assert (E : set_init_dict M1 sd = M1) by apply set_init_idem.
  pose proof (load_set_init_ok M1 sd) as Hok. rewrite E in Hok.
  pose proof (load_state_dict_fst M1 M1) as Hf.
  pose proof (set_init_onto M1 sd) as Hon. rewrite E in Hon.
  rewrite E. destruct (load_state_dict M1 M1) as [a b]. cbn in Hok, Hf.
  subst. rewrite Hon. reflexivity.
Qed.

(** The outcome of the restore block, for any checkpoint. *)
Lemma restore_checkpoint_eq (c_lr : float) (model criterion : StateDict)
    (groups : list ParamGroup) (ck : Checkpoint) :
  restore_checkpoint c_lr model criterion groups ck
  = Some (set_init_dict model (ck_model ck),
          (if snd (load_state_dict model (ck_model ck)) then
             match ck_criterion ck with
             | Some cs => set_init_dict criterion cs
             | None => criterion
             end
           else criterion),
          reset_lr c_lr groups, ck_step ck).
Proof.
  unfold restore_checkpoint.
  pose proof (load_state_dict_fst model (ck_model ck)) as Hf1.
  destruct (load_state_dict model (ck_model ck)) as [m1 ok1] eqn:E1.
  cbn [fst snd] in Hf1 |- *. subst m1.
  destruct ok1.
  - destruct (ck_criterion ck) as [cs|].
    + pose proof (load_state_dict_fst criterion cs) as Hf2.
      destruct (load_state_dict criterion cs) as [c1 ok2].
      cbn [fst] in Hf2. subst c1.
      destruct ok2; cbn [negb]; [reflexivity|].
      rewrite fallback_load. reflexivity.
    + reflexivity.
  - rewrite fallback_load. reflexivity.
Qed.

(** C6 (amended): restoring from a checkpoint never raises on a key or shape
    mismatch. The model always ends up with exactly the checkpoint parameters
    that match it by name and shape, the others keeping their fresh values.
    If the model's strict load succeeded, the criterion (when the checkpoint
    stores one) gets the checkpoint parameters that match it by name and
    shape, even when its own strict load raised. If the model's strict load
    raised, the criterion is not loaded at all: it keeps its fresh values. *)
Theorem restore_partial_load (c_lr : float) (model criterion : StateDict)
    (groups : list ParamGroup) (ck : Checkpoint) :
  restore_checkpoint c_lr model criterion groups ck
  = Some (set_init_dict model (ck_model ck),
          (if snd (load_state_dict model (ck_model ck)) then
             match ck_criterion ck with
             | Some cs => set_init_dict criterion cs
             | None => criterion
             end
           else criterion),
          reset_lr c_lr groups, ck_step ck)
  /\ (forall (sd params : StateDict) (k : string),
        set_init_dict params sd !! k
        = params !! k ≫= (fun p => Some (match sd !! k with
                                         | Some t => if bool_decide (shape t = shape p)
                                                     then t else p
                                         | None => p
                                         end))).
Proof.
  split.
  - unfold restore_checkpoint.
    pose proof (load_state_dict_fst model (ck_model ck)) as Hf1.
    destruct (load_state_dict model (ck_model ck)) as [m1 ok1] eqn:E1.
    cbn [fst snd] in Hf1 |- *. subst m1.
    destruct ok1.
    + destruct (ck_criterion ck) as [cs|].
      * pose proof (load_state_dict_fst criterion cs) as Hf2.
        destruct (load_state_dict criterion cs) as [c1 ok2].
        cbn [fst] in Hf2. subst c1.
        destruct ok2; cbn [negb]; [reflexivity|].
        rewrite fallback_load. reflexivity.
      * reflexivity.
    + rewrite fallback_load. reflexivity.
  - intros sd params k. rewrite set_init_lookup.
    destruct (params !! k) as [p|]; cbn; [|reflexivity].
    unfold shape_matches. destruct (sd !! k) as [t|]; cbn; [|reflexivity].
    destruct (bool_decide _); reflexivity.
Qed.

(** C6 (counterexample): the model's parameter ["v"] has a different shape in
    the checkpoint, so the model's strict load raises; the criterion's
    parameter ["a"] matches the checkpoint by name and shape, yet keeps its
    fresh value [5] instead of the stored [50]. *)
Lemma restore_criterion_skipped_cex :
  exists m c2 g z,
    restore_checkpoint 0.0001
      (<["w"%string := Build_Tensor [2] 1]> (<["v"%string := Build_Tensor [3] 2]> ∅))
      (<["a"%string := Build_Tensor [1] 5]> ∅) []
      {| ck_model := <["w"%string := Build_Tensor [2] 10]>
                       (<["v"%string := Build_Tensor [4] 20]> ∅);
         ck_criterion := Some (<["a"%string := Build_Tensor [1] 50]> ∅);
         ck_optimizer := [];
         ck_step := 7 |}
    = Some (m, c2, g, z)
    /\ m !! "w"%string = Some (Build_Tensor [2] 10)
    /\ m !! "v"%string = Some (Build_Tensor [3] 2)
    /\ c2 !! "a"%string = Some (Build_Tensor [1] 5).
Proof.
  do 4 eexists. split; [vm_compute; reflexivity|].
  split; [reflexivity|]. split; reflexivity.
Qed.

(** C7 (claim): after a restore, every optimizer parameter group has the
    configured learning rate, whatever the checkpoint stored (its optimizer
    entry is never read), and the checkpoint's step is the [global_step]
    handed to [train]; without a restore path [global_step] starts at 0 and
    the model, criterion and optimizer are left as freshly built. *)
Theorem restore_lr_and_step (c_lr : float) (restore : option Checkpoint)
    (model criterion : StateDict) (groups : list ParamGroup) :
  exists m cr groups' global_step0,
    restore_stage c_lr restore model criterion groups
      = Some (m, cr, groups', global_step0)
    /\ match restore with
       | Some ck => Forall (fun g => lr g = c_lr) groups'
                    /\ length groups' = length groups
                    /\ global_step0 = ck_step ck
       | None => m = model /\ cr = criterion /\ groups' = groups /\ global_step0 = 0%Z
       end.
Proof.
  destruct restore as [ck|].
  - pose proof (restore_checkpoint_eq c_lr model criterion groups ck) as E.
    cbn [restore_stage]. rewrite E. do 4 eexists. split; [reflexivity|].
    split; [|split].
    + clear. unfold reset_lr. induction groups as [|g gs IH]; cbn; constructor; auto.
    + unfold reset_lr. apply length_map.
    + reflexivity.
  - do 4 eexists. split; [reflexivity|]. repeat split.
Qed.

End RestoreFacts.

(* ------------------------------------------------------------------ *)
(** ** Further properties of the regrouping and of the criterion's view *)

Module RegroupExtra.
Import Regroup RegroupFacts.

(** With one utterance per class, or a single class, the regrouping leaves the
    batch as it is. *)
Theorem regroup_trivial {A : Type} (d : A) (U C : nat) (x : list A) :
  length x = U * C -> (U = 1 \/ C = 1) ->
  view_transpose_reshape d U C x = Some x.
Proof.
  intros H HUC. rewrite (view_transpose_reshape_ok d U C x H). f_equal.
  transitivity (map (fun k => nth k x d) (seq 0 (length x)));
    [|apply map_nth_seq_self].
  rewrite H, (Nat.mul_comm U C). apply map_ext_in. intros k Hk.
  apply in_seq in Hk. f_equal. unfold src_index.
  destruct HUC as [-> | ->].
  - rewrite Nat.mod_1_r, Nat.div_1_r. lia.
  - rewrite Nat.mod_small, Nat.div_small by lia. lia.
Qed.

Lemma regroup_trivial_witness :
  length [7;8;9] = 1 * 3 /\ (1 = 1 \/ 3 = 1)
  /\ view_transpose_reshape 0 1 3 [7;8;9] = Some [7;8;9].
Proof.
  split; [reflexivity|]. split; [left; reflexivity|].
  apply (regroup_trivial 0 1 3 [7;8;9]); [reflexivity|left; reflexivity].
Defined.

(** The comment of line 83 in general: when the sampler yields the classes
    round-robin (row [k] has class [k mod C]), the regrouped labels come in
    [C] contiguous blocks of [U] rows, block [j] carrying class [j]. *)
Theorem regroup_round_robin_blocks {L : Type} (d : L) (cls : nat -> L) (U C : nat) :
  view_transpose_reshape d U C (map (fun k => cls (k mod C)) (seq 0 (U * C)))
  = Some (map (fun k => cls (k / U)) (seq 0 (C * U))).
Proof.
  rewrite view_transpose_reshape_ok by (rewrite length_map, length_seq; reflexivity).
  f_equal. apply map_ext_in. intros k Hk. apply in_seq in Hk.
  assert (HC : C <> 0) by (intros ->; lia).
  assert (HU : U <> 0) by (intros ->; lia).
  rewrite (nth_map_seq (fun k => cls (k mod C)))
    by (pose proof (src_index_lt U C k); lia).
  f_equal. unfold src_index.
  assert (k / U < C) by (apply Nat.Div0.div_lt_upper_bound; lia).
  symmetry. apply (Nat.mod_unique _ _ (k mod U)); lia.
Qed.

(** Lines 84-85 and 119 together: for an embedding computed row by row ([f]),
    the criterion's [view(C, N // C, -1)] of the regrouped batch has one entry
    per class, entry [j] holding utterances [0 .. U) of class [j] (input rows
    [i*C + j]) in order. *)
Theorem regroup_class_view {A B : Type} (d : A) (f : A -> B) (U C : nat) (x : list A) :
  length x = U * C -> C <> 0 ->
  exists x', view_transpose_reshape d U C x = Some x'
    /\ LossView.view_classes C (map f x')
       = Some (map (fun j => map (fun i => f (nth (i * C + j) x d)) (seq 0 U)) (seq 0 C)).
Proof.
  intros H HC. eexists. split; [apply (view_transpose_reshape_ok d U C x H)|].
  unfold LossView.view_classes.
  rewrite length_map, regroup_length.
  apply Nat.eqb_neq in HC as HC'. rewrite HC'.
  rewrite Nat.Div0.mod_mul, Nat.div_mul by exact HC. cbn [Nat.eqb negb].
  f_equal. apply map_ext_in. intros j Hj. apply in_seq in Hj.
  apply (nth_ext _ _ (f d) (f d)).
  - rewrite length_firstn, length_skipn, !length_map, !length_seq.
    assert (j * U + U <= C * U) by nia. lia.
  - intros i Hi. rewrite length_firstn, length_skipn, !length_map, !length_seq in Hi.
    rewrite nth_firstn. destruct (Nat.ltb_spec i U); [|lia].
    rewrite nth_skipn, map_nth, regroup_nth by nia.
    rewrite (Nat.add_comm (j * U) i), (Nat.add_comm i (j * U)).
    rewrite src_index_grid by lia.
    rewrite (nth_map_seq (fun i => f (nth (i * C + j) x d))) by lia.
    reflexivity.
Qed.

Lemma regroup_class_view_witness :
  length [10;11;12;13;14;15] = 2 * 3 /\ 3 <> 0
  /\ exists x', view_transpose_reshape 0 2 3 [10;11;12;13;14;15] = Some x'
    /\ LossView.view_classes 3 (map (fun n => n * 2) x')
       = Some (map (fun j => map (fun i => nth (i * 3 + j) [10;11;12;13;14;15] 0 * 2)
                                 (seq 0 2)) (seq 0 3)).
Proof.
  split; [reflexivity|]. split; [lia|].
  apply (regroup_class_view 0 (fun n => n * 2) 2 3 [10;11;12;13;14;15]);
    [reflexivity|lia].
Defined.

End RegroupExtra.

(* ------------------------------------------------------------------ *)
(** ** Further properties of the training loop *)

Module LoopExtra.
Import Loop LoopFacts.

(** What one successful iteration does to the checkpoint log and the best
    loss: either both are left alone, or the step is logged (a save step or
    the last step) with a smoothed loss below the previous best, which it
    becomes. *)
Lemma train_step_ck (c : TrainConfig) (s s' : TrainState) (o : Obs) (b : bool) :
  train_step c s o = Some (s', b) ->
  global_step s' = (global_step s + 1)%Z
  /\ ((checkpoints s' = checkpoints s /\ best_loss s' = best_loss s)
      \/ (checkpoints s' = global_step s' :: checkpoints s
          /\ ((save_step c <> 0 /\ global_step s' mod save_step c = 0)
              \/ max_train_step c <= global_step s')%Z
          /\ best_loss s' = avg_loss s'
          /\ PrimFloat.ltb (avg_loss s') (best_loss s) = true)).
Proof.
  intros H. unfold train_step in H. cbv zeta in H.
  destruct (py_mod_is_zero _ (steps_plot_stats c)); [|discriminate].
  destruct (py_mod_is_zero _ (print_step c)); [|discriminate].
  destruct (max_train_step c <=? global_step s + 1)%Z eqn:Emax.
  - injection H as <- <-. unfold save_block, save_best_model.
    destruct (PrimFloat.ltb _ _) eqn:El; cbn [global_step checkpoints best_loss avg_loss].
    + split; [reflexivity|]. right. split; [reflexivity|].
      split; [right; apply Z.leb_le; exact Emax|]. split; [reflexivity|exact El].
    + split; [reflexivity|]. left. split; reflexivity.
  - destruct (py_mod_is_zero (global_step s + 1) (save_step c)) as [r|] eqn:Es;
      [|discriminate].
    apply py_mod_is_zero_some in Es as [Hnz ->].
    destruct ((global_step s + 1) mod save_step c =? 0)%Z eqn:Em.
    + injection H as <- <-. unfold save_block, save_best_model.
      destruct (PrimFloat.ltb _ _) eqn:El; cbn [global_step checkpoints best_loss avg_loss].
      * split; [reflexivity|]. right. split; [reflexivity|].
        split; [left; split; [exact Hnz|apply Z.eqb_eq; exact Em]|].
        split; [reflexivity|exact El].
      * split; [reflexivity|]. left. split; reflexivity.
    + injection H as <- <-. cbn [global_step checkpoints best_loss].
      split; [reflexivity|]. left. split; reflexivity.
Qed.

Lemma train_loop_ck_inv (c : TrainConfig) (global_step0 : Z) (bs : list Obs) :
  forall (s s' : TrainState) (n : nat),
  train_loop c s bs = Some (s', n) ->
  (global_step0 <= global_step s)%Z ->
  StronglySorted (fun a b => b < a)%Z (checkpoints s) ->
  Forall (logged_step c global_step0 (global_step s)) (checkpoints s) ->
  (checkpoints s = [] -> best_loss s = PrimFloat.infinity) ->
  (global_step0 <= global_step s')%Z
  /\ StronglySorted (fun a b => b < a)%Z (checkpoints s')
  /\ Forall (logged_step c global_step0 (global_step s')) (checkpoints s')
  /\ (checkpoints s' = [] -> best_loss s' = PrimFloat.infinity)
  /\ (length (checkpoints s') <= length (checkpoints s) + n)%nat.
Proof.
  induction bs as [|o bs IH]; intros s s' n Hl H0 Hso Hall Hinf.
  - cbn in Hl. injection Hl as <- <-. repeat split; auto. lia.
  - cbn [train_loop] in Hl.
    destruct (train_step c s o) as [[s1 b]|] eqn:Hs; [|discriminate].
    pose proof (train_step_ck c s s1 o b Hs) as (Hg & Hck).
    assert (G1 : (global_step0 <= global_step s1)%Z) by lia.
    assert (Wid : Forall (logged_step c global_step0 (global_step s1)) (checkpoints s)).
    { eapply Forall_impl; [exact Hall|]. intros g [Hr Hm]. split; [lia|exact Hm]. }
    assert (I1 : StronglySorted (fun a b => b < a)%Z (checkpoints s1)
                 /\ Forall (logged_step c global_step0 (global_step s1)) (checkpoints s1)
                 /\ (checkpoints s1 = [] -> best_loss s1 = PrimFloat.infinity)
                 /\ (length (checkpoints s1) <= S (length (checkpoints s)))%nat).
    { destruct Hck as [(Hc & Hb) | (Hc & Hw & _ & _)]; rewrite Hc.
      - rewrite Hb. repeat split; auto.
      - split; [|split; [|split]].
        + constructor; [exact Hso|].
          eapply Forall_impl; [exact Hall|]. intros g [Hr _]. lia.
        + constructor; [|exact Wid]. split; [lia|exact Hw].
        + discriminate.
        + cbn. lia. }
    destruct I1 as (S1 & F1 & B1 & L1).
    destruct b.
    + injection Hl as <- <-. repeat split; auto. lia.
    + destruct (train_loop c s1 bs) as [[s2 m]|] eqn:Hl2; [|discriminate].
      injection Hl as <- <-.
      destruct (IH s1 s2 m Hl2 G1 S1 F1 B1) as (G2 & S2 & F2 & B2 & L2).
      repeat split; auto. lia.
Qed.

(** A pass raises (ZeroDivisionError of a cadence test) exactly when the
    loader yields a batch and [steps_plot_stats] or [print_step] is 0, or
    [save_step] is 0 and the first step is still below the budget. An empty
    loader never raises. *)
Theorem train_raises_iff (c : TrainConfig) (bs : list Obs) (global_step0 : Z) :
  train c bs global_step0 = None
  <-> bs <> []
      /\ (steps_plot_stats c = 0 \/ print_step c = 0
          \/ (save_step c = 0 /\ global_step0 + 1 < max_train_step c))%Z.
Proof.
  assert (Z0 : forall a, py_mod_is_zero a 0%Z = None) by reflexivity.
  split.
  - intros H. destruct bs as [|o bs]; [discriminate|]. split; [discriminate|].
    destruct (Z.eq_dec (steps_plot_stats c) 0%Z) as [Hp|Hp]; [left; exact Hp|].
    destruct (Z.eq_dec (print_step c) 0%Z) as [Hq|Hq]; [right; left; exact Hq|].
    right; right.
    destruct (Z.eq_dec (save_step c) 0%Z) as [Hs|Hs].
    + split; [exact Hs|].
      destruct (Z.ltb_spec (global_step0 + 1) (max_train_step c)) as [Hlt|Hge];
        [exact Hlt|exfalso].
      unfold train in H. cbn [train_loop] in H. unfold train_step in H.
      cbv zeta in H. cbn [global_step init_state] in H.
      rewrite !py_mod_is_zero_nz in H by assumption.
      apply Z.leb_le in Hge. rewrite Hge in H. discriminate.
    + exfalso. destruct (train_loop_count c (o :: bs) (init_state global_step0) Hp Hq Hs)
        as (s' & n & Hl & _).
      unfold train in H. rewrite Hl in H. discriminate.
  - intros [Hne Hz]. destruct bs as [|o bs]; [contradiction|].
    unfold train. cbn [train_loop].
    enough (E : train_step c (init_state global_step0) o = None) by (rewrite E; reflexivity).
    unfold train_step. cbv zeta. cbn [global_step init_state].
    destruct Hz as [Hp | [Hq | [Hs Hlt]]].
    + rewrite Hp, Z0. reflexivity.
    + rewrite Hq, Z0. destruct (py_mod_is_zero _ _); reflexivity.
    + destruct (py_mod_is_zero _ (steps_plot_stats c)); [|reflexivity].
      destruct (py_mod_is_zero _ (print_step c)); [|reflexivity].
      apply Z.leb_gt in Hlt. rewrite Hlt, Hs, Z0. reflexivity.
Qed.

(** The checkpoint log of a pass (newest first) is strictly decreasing, so no
    step is saved twice; every logged step lies after the initial step and at
    most at the final one, and is a multiple of [save_step] or at or past
    [max_train_step]; at most one checkpoint is written per processed batch;
    and [best_loss] is still infinity when no checkpoint was written. *)
Theorem train_checkpoint_log (c : TrainConfig) (bs : list Obs) (global_step0 : Z)
    (s' : TrainState) (n : nat) :
  train c bs global_step0 = Some (s', n) ->
  StronglySorted (fun a b => b < a)%Z (checkpoints s')
  /\ Forall (logged_step c global_step0 (global_step s')) (checkpoints s')
  /\ (length (checkpoints s') <= n)%nat
  /\ (checkpoints s' = [] -> best_loss s' = PrimFloat.infinity).
Proof.
  intros H.
  destruct (train_loop_ck_inv c global_step0 bs (init_state global_step0) s' n H)
    as (_ & S1 & F1 & B1 & L1); cbn; auto.
  - lia.
  - constructor.
Qed.

Lemma train_checkpoint_log_witness :
  exists s' n,
    train cfg_small (map obs_small [3; 2; 4; 1; 1; 1]%float) 0 = Some (s', n)
    /\ StronglySorted (fun a b => b < a)%Z (checkpoints s')
    /\ Forall (logged_step cfg_small 0 (global_step s')) (checkpoints s')
    /\ (length (checkpoints s') <= n)%nat
    /\ (checkpoints s' = [] -> best_loss s' = PrimFloat.infinity).
Proof.
  destruct (train cfg_small (map obs_small [3; 2; 4; 1; 1; 1]%float) 0)
    as [[s' n]|] eqn:E; [|vm_compute in E; discriminate].
  exists s', n. split; [reflexivity|].
  exact (train_checkpoint_log cfg_small _ 0 s' n E).
Defined.

End LoopExtra.

(* ------------------------------------------------------------------ *)
(** ** Further properties of the restore block *)

Module RestoreExtra.
Import Restore RestoreFacts.

Lemma set_init_exact (m sd : StateDict) :
  same_layout m sd -> set_init_dict m sd = sd.
Proof.
  intros [Hd Hs]. apply map_eq_iff. intros k. rewrite set_init_lookup.
  destruct (m !! k) as [p|] eqn:Hk; cbn.
  - destruct (Hs k p Hk) as (t & Ht & Hsh).
    unfold shape_matches. rewrite Ht. cbn. rewrite bool_decide_eq_true_2 by exact Hsh.
    reflexivity.
  - destruct (sd !! k) eqn:Ht; [|reflexivity].
    exfalso. assert (Hin : k ∈ dom sd) by (apply elem_of_dom; eauto).
    rewrite Hd in Hin. apply elem_of_dom in Hin as [? Hin]. congruence.
Qed.

Lemma load_exact_ok (m sd : StateDict) :
  same_layout m sd -> snd (load_state_dict m sd) = true.
Proof.
  intros H. rewrite <- (set_init_exact m sd H). apply load_set_init_ok.
Qed.

(** Round trip: restoring from a checkpoint of the same architecture sets the
    model to exactly the stored parameters; the criterion gets exactly its
    stored parameters when those have its layout too, and is untouched when
    the checkpoint has no criterion entry. *)
Theorem restore_exact_checkpoint (c_lr : float) (model criterion : StateDict)
    (groups : list ParamGroup) (ck : Checkpoint) :
  same_layout model (ck_model ck) ->
  restore_checkpoint c_lr model criterion groups ck
  = Some (ck_model ck,
          match ck_criterion ck with
          | Some cs => set_init_dict criterion cs
          | None => criterion
          end,
          reset_lr c_lr groups, ck_step ck)
  /\ (forall cs, ck_criterion ck = Some cs -> same_layout criterion cs ->
        set_init_dict criterion cs = cs).
Proof.
  intros H. split.
  - rewrite restore_checkpoint_eq, (load_exact_ok _ _ H), (set_init_exact _ _ H).
    reflexivity.
  - intros cs _ Hc. apply set_init_exact, Hc.
Qed.

Lemma restore_exact_checkpoint_witness :
  same_layout (<["w"%string := Build_Tensor [2] 1]> ∅) (ck_model ck_small)
  /\ restore_checkpoint 0.0001 (<["w"%string := Build_Tensor [2] 1]> ∅)
       (<["a"%string := Build_Tensor [1] 5]> ∅) [] ck_small
     = Some (ck_model ck_small,
             match ck_criterion ck_small with
             | Some cs => set_init_dict (<["a"%string := Build_Tensor [1] 5]> ∅) cs
             | None => <["a"%string := Build_Tensor [1] 5]> ∅
             end,
             reset_lr 0.0001 [], ck_step ck_small)
  /\ (forall cs, ck_criterion ck_small = Some cs ->
        same_layout (<["a"%string := Build_Tensor [1] 5]> ∅) cs ->
        set_init_dict (<["a"%string := Build_Tensor [1] 5]> ∅) cs = cs).
Proof.
  assert (H : same_layout (<["w"%string := Build_Tensor [2] 1]> ∅) (ck_model ck_small)).
  { split.
    - cbn. rewrite !dom_insert_L. reflexivity.
    - intros k p Hk. apply lookup_insert_Some in Hk as [[<- <-] | [_ Hk]].
      + eexists. split; [reflexivity|reflexivity].
      + rewrite lookup_empty in Hk. discriminate. }
  split; [exact H|].
  exact (restore_exact_checkpoint 0.0001 _ _ [] ck_small H).
Defined.

End RestoreExtra.
